(** * Write_influxdb_template.ino: the sampling-and-publish sketch

    A shallow embedding of [src/arduino/Write_influxdb_template.ino].

    The sketch owns two globals, [Point sensor] and [int error]; everything
    else it does is a call into a library (WiFiMulti, SHT31, InfluxDbClient,
    Serial, delay).  The embedding is a state-and-writer monad over the two
    globals: every call that acts on the outside world is written to a list
    of events, and every value a library call returns is taken from a script
    of answers ([SetupIn], [LoopIn]), so that a statement quantified over all
    scripts covers every run.

    Numbers.  [int], [uint16_t] and the WiFi status are integers that the
    sketch only stores and compares with a constant; they are [Z].  The
    dew-point arithmetic is binary64 with the [exp] and [log] of the C
    library, which are not part of the sketch; see the section on doubles
    for what the model keeps of it. *)

From Stdlib Require Import Reals Lra ZArith Lia String List Bool.
Import ListNotations.
Local Open Scope string_scope.
Local Open Scope Z_scope.
Local Open Scope list_scope.

(** ** C doubles, idealised *)

(** [Finite r] carries the value [r] an operation has in exact arithmetic;
    [NotFinite] stands for a NaN or an infinity.  Rounding, overflow and
    underflow are not modelled: where the exact value is finite, the double
    the sketch computes is a rounding of it, or is not finite at all (an
    [exp] that overflows or underflows).  So nothing below is stated about
    the value of a [Finite] result.  The model is used for two things only:
    that the value of the expression, whatever it is, is handed to
    [addField], and that the result is not finite when the argument of
    [log] is not positive or a divisor is zero. *)
Inductive double : Type :=
| Finite (r : R)
| NotFinite.

Definition dlift2 (f : R -> R -> R) (x y : double) : double :=
  match x, y with
  | Finite a, Finite b => Finite (f a b)
  | _, _ => NotFinite
  end.

Definition dadd : double -> double -> double := dlift2 Rplus.
Definition dsub : double -> double -> double := dlift2 Rminus.
Definition dmul : double -> double -> double := dlift2 Rmult.

(** [x / y]: a zero divisor gives an infinity or a NaN. *)
Definition ddiv (x y : double) : double :=
  match x, y with
  | Finite a, Finite b =>
      if Req_dec_T b 0%R then NotFinite else Finite (a / b)%R
  | _, _ => NotFinite
  end.

Definition dexp (x : double) : double :=
  match x with
  | Finite a => Finite (exp a)
  | NotFinite => NotFinite
  end.

(** [log(x)]: minus infinity at zero, NaN below it. *)
Definition dlog (x : double) : double :=
  match x with
  | Finite a => if Rlt_dec 0%R a then Finite (ln a) else NotFinite
  | NotFinite => NotFinite
  end.

(** ** The Measurement Point *)

(** The overloads of [Point::addField] the sketch uses: [float] for what the
    sensor driver returns, [uint16_t] for the status word, [int] for the
    error code, [double] for the dew point. *)
Inductive FieldValue : Type :=
| VFloat (r : R)
| VUInt16 (z : Z)
| VInt (z : Z)
| VDouble (d : double).

(** Modelled from the spec: the [Point] class of the InfluxDB client library
    is not under src/.  A point is "a named, tagged bundle of typed key/value
    fields"; tags and fields are kept in the order they were added, and
    "clear all fields on the Measurement Point (tags persist)". *)
Record Point : Type := mkPoint {
  measurement : string;
  tags : list (string * string);
  fields : list (string * FieldValue)
}.

(** Modelled from the spec: [Point::addTag] is not under src/; it "attaches"
    a tag to the point and touches nothing else. *)
Definition addTag (name value : string) (p : Point) : Point :=
  mkPoint (measurement p) (tags p ++ [(name, value)]) (fields p).

(** Modelled from the spec: [Point::addField] is not under src/; it
    "records" a field on the point and touches nothing else. *)
Definition addField (name : string) (v : FieldValue) (p : Point) : Point :=
  mkPoint (measurement p) (tags p) (fields p ++ [(name, v)]).

(** Modelled from the spec: [Point::clearFields] is not under src/; "clear
    all fields on the Measurement Point (tags persist)". *)
Definition clearFields (p : Point) : Point :=
  mkPoint (measurement p) (tags p) [].

Fixpoint lookup {A : Type} (k : string) (l : list (string * A)) : option A :=
  match l with
  | [] => None
  | (k', v) :: l' => if String.eqb k k' then Some v else lookup k l'
  end.

Definition hasField (name : string) (p : Point) : bool :=
  match lookup name (fields p) with
  | Some _ => true
  | None => false
  end.

(** ** The sketch's globals and what it does to the outside world *)

Record Sketch : Type := mkSketch {
  sensor : Point;   (* Point sensor("temp_sensor"); *)
  error : Z         (* int error = 0; *)
}.

Definition initial : Sketch :=
  mkSketch (mkPoint "temp_sensor" [] []) 0.

Inductive Event : Type :=
| SerialBegin (baud : Z)
| SerialPrint (s : string)
| SerialPrintln (s : string)
| WiFiMode (mode : string)
| AddAP (ssid password : string)
| WireBegin (sda scl : Z)
| ShtBegin (address : Z)
| WifiRun (status : Z)
| Delay (ms : Z)
| TimeSync (tz ntp1 ntp2 : string)
| ValidateConnection (ok : bool)
| ShtRead
| ShtReadStatus
| WritePoint (p : Point) (ok : bool).

(** Status value of an associated station in the Arduino WiFi headers. *)
Definition WL_CONNECTED : Z := 3.

Definition WIFI_SSID : string := "SSID".
Definition WIFI_PASSWORD : string := "passwd".
Definition SHT31_ADDRESS : Z := 0x44.
Definition TZ_INFO : string := "CET-1CEST,M3.5.0,M10.5.0/3".

(** ** State and writer monad *)

Definition M (A : Type) : Type := Sketch -> A * Sketch * list Event.

Definition ret {A : Type} (a : A) : M A := fun s => (a, s, []).

Definition bind {A B : Type} (m : M A) (k : A -> M B) : M B :=
  fun s =>
    let '(a, s1, e1) := m s in
    let '(b, s2, e2) := k a s1 in
    (b, s2, e1 ++ e2).

Notation "x <- m ;; k" := (bind m (fun x => k))
  (at level 61, m at next level, right associativity).
Notation "m ;; k" := (bind m (fun _ => k))
  (at level 61, right associativity).

Definition emit (e : Event) : M unit := fun s => (tt, s, [e]).
Definition get_sensor : M Point := fun s => (sensor s, s, []).
Definition on_sensor (f : Point -> Point) : M unit :=
  fun s => (tt, mkSketch (f (sensor s)) (error s), []).
Definition get_error : M Z := fun s => (error s, s, []).
Definition set_error (e : Z) : M unit :=
  fun s => (tt, mkSketch (sensor s) e, []).

Definition result {A : Type} (r : A * Sketch * list Event) : A := fst (fst r).
Definition final {A : Type} (r : A * Sketch * list Event) : Sketch := snd (fst r).
Definition events {A : Type} (r : A * Sketch * list Event) : list Event := snd r.

(** ** Library calls: the event they cause and the scripted answer *)

Definition Serial_begin (baud : Z) : M unit := emit (SerialBegin baud).
Definition Serial_print (s : string) : M unit := emit (SerialPrint s).
Definition Serial_println (s : string) : M unit := emit (SerialPrintln s).
Definition delay (ms : Z) : M unit := emit (Delay ms).
Definition wifiMulti_run (answer : Z) : M Z :=
  emit (WifiRun answer) ;; ret answer.
Definition sht_read : M unit := emit ShtRead.
Definition sht_readStatus (answer : Z) : M Z :=
  emit ShtReadStatus ;; ret answer.
Definition sht_getError (answer : Z) : M Z := ret answer.
Definition sht_getTemperature (answer : R) : M R := ret answer.
Definition sht_getHumidity (answer : R) : M R := ret answer.
Definition client_validateConnection (answer : bool) : M bool :=
  emit (ValidateConnection answer) ;; ret answer.
Definition client_writePoint (answer : bool) : M bool :=
  p <- get_sensor ;; emit (WritePoint p answer) ;; ret answer.
Definition sensor_addTag (name value : string) : M unit :=
  on_sensor (addTag name value).
Definition sensor_addField (name : string) (v : FieldValue) : M unit :=
  on_sensor (addField name v).
Definition sensor_clearFields : M unit := on_sensor clearFields.
Definition WiFi_mode (mode : string) : M unit := emit (WiFiMode mode).
Definition wifiMulti_addAP (ssid password : string) : M unit :=
  emit (AddAP ssid password).
Definition Wire_begin (sda scl : Z) : M unit := emit (WireBegin sda scl).
Definition sht_begin (address : Z) : M unit := emit (ShtBegin address).
Definition WiFi_localIP_toString (answer : string) : M string := ret answer.
Definition WiFi_softAPmacAddress (answer : string) : M string := ret answer.
Definition timeSync (tz ntp1 ntp2 : string) : M unit :=
  emit (TimeSync tz ntp1 ntp2).
Definition client_getServerUrl (answer : string) : M string := ret answer.
Definition client_getLastErrorMessage (answer : string) : M string :=
  ret answer.
Definition client_pointToLineProtocol (answer : Point -> string) : M string :=
  p <- get_sensor ;; ret (answer p).

(** ** setup() *)

(** What the libraries answer during [setup]: [wifi_answers k] is the status
    returned by the [k]-th call of [wifiMulti.run()], counted from 0. *)
Record SetupIn : Type := mkSetupIn {
  wifi_answers : nat -> Z;
  localIP : string;
  softAPmac : string;
  validate_ok : bool;
  server_url : string;
  setup_last_error : string
}.

(** Lines 72-75: [while (wifiMulti.run() != WL_CONNECTED) { ... }].  The
    loop has no bound of its own; [fuel] bounds the number of times the
    condition is evaluated, and the result tells whether the loop was left
    ([true]) or is still waiting when the fuel is used up ([false]). *)
Fixpoint wait_for_wifi (answers : nat -> Z) (k fuel : nat) : M bool :=
  match fuel with
  | O => ret false
  | S fuel' =>
      st <- wifiMulti_run (answers k) ;;
      if negb (st =? WL_CONNECTED) then
        Serial_print "." ;;
        delay 500 ;;
        wait_for_wifi answers (S k) fuel'
      else ret true
  end.

(** Lines 62-102.  The result is [true] when [setup] has returned and
    [false] when it is still in the association wait. *)
Definition setup (i : SetupIn) (fuel : nat) : M bool :=
  Serial_begin 115200 ;;
  WiFi_mode "WIFI_STA" ;;
  wifiMulti_addAP WIFI_SSID WIFI_PASSWORD ;;
  Wire_begin 4 5 ;;
  sht_begin SHT31_ADDRESS ;;
  Serial_print "Connecting to wifi" ;;
  left_loop <- wait_for_wifi (wifi_answers i) 0 fuel ;;
  if left_loop then
    Serial_println EmptyString ;;
    ip <- WiFi_localIP_toString (localIP i) ;;
    sensor_addTag "IP" ip ;;
    mac <- WiFi_softAPmacAddress (softAPmac i) ;;
    sensor_addTag "MAC" mac ;;
    timeSync TZ_INFO "pool.ntp.org" "time.nis.gov" ;;
    ok <- client_validateConnection (validate_ok i) ;;
    (if ok then
       Serial_print "Connected to InfluxDB: " ;;
       url <- client_getServerUrl (server_url i) ;;
       Serial_println url
     else
       Serial_print "InfluxDB connection failed: " ;;
       msg <- client_getLastErrorMessage (setup_last_error i) ;;
       Serial_println msg) ;;
    ret true
  else ret false.

(** ** loop() *)

(** What the libraries answer during one call of [loop], in the order of the
    calls; the line numbers are those of the call in the sketch. *)
Record LoopIn : Type := mkLoopIn {
  read_error : Z;            (* 108: sht.getError() *)
  temperature : R;           (* 110: sht.getTemperature() *)
  humidity : R;              (* 111: sht.getHumidity() *)
  status : Z;                (* 113: sht.readStatus() *)
  error_code : Z;            (* 114: sht.getError() *)
  dew_t : R;                 (* 115: sht.getTemperature() *)
  dew_rh : R;                (* 116: sht.getHumidity() *)
  line_protocol : Point -> string;  (* 125: client.pointToLineProtocol(sensor) *)
  wifi_status : Z;           (* 127: wifiMulti.run() *)
  write_ok : bool;           (* 131: client.writePoint(sensor) *)
  last_error : string        (* 133: client.getLastErrorMessage() *)
}.

(** Lines 117-122: the locals [a], [b], [c], [d], [gamma] and the expression
    passed to [addField("dewpoint", ...)]. *)
Definition dewpoint_expr (t rh : double) : double :=
  let a := Finite 6.1121 in
  let b := Finite 18.678 in
  let c := Finite 257.14 in
  let d := Finite 234.5 in
  let gamma :=
    dlog (dmul (ddiv rh (Finite 100))
               (dexp (dmul (dsub b (ddiv t d)) (ddiv t (dadd c t))))) in
  ddiv (dmul c gamma) (dsub b gamma).

(** Lines 104-139. *)
Definition loop (i : LoopIn) : M unit :=
  sensor_clearFields ;;
  sht_read ;;
  e <- sht_getError (read_error i) ;;
  set_error e ;;
  err <- get_error ;;
  (if err =? 0 then
     temp <- sht_getTemperature (temperature i) ;;
     sensor_addField "temp" (VFloat temp) ;;
     hum <- sht_getHumidity (humidity i) ;;
     sensor_addField "hum" (VFloat hum)
   else ret tt) ;;
  stat <- sht_readStatus (status i) ;;
  sensor_addField "stat" (VUInt16 stat) ;;
  code <- sht_getError (error_code i) ;;
  sensor_addField "error" (VInt code) ;;
  t <- sht_getTemperature (dew_t i) ;;
  rh <- sht_getHumidity (dew_rh i) ;;
  sensor_addField "dewpoint" (VDouble (dewpoint_expr (Finite t) (Finite rh))) ;;
  Serial_print "Writing: " ;;
  line <- client_pointToLineProtocol (line_protocol i) ;;
  Serial_println line ;;
  st <- wifiMulti_run (wifi_status i) ;;
  (if negb (st =? WL_CONNECTED) then
     Serial_println "Wifi connection lost"
   else ret tt) ;;
  ok <- client_writePoint (write_ok i) ;;
  (if negb ok then
     Serial_print "InfluxDB write failed: " ;;
     msg <- client_getLastErrorMessage (last_error i) ;;
     Serial_println msg
   else ret tt) ;;
  Serial_println "Wait 1s" ;;
  delay 1000.

(** The steady state: [loop] called once per element of the script. *)
Fixpoint loops (script : list LoopIn) : M unit :=
  match script with
  | [] => ret tt
  | i :: rest => loop i ;; loops rest
  end.

(** The points handed to [client.writePoint], oldest first. *)
Fixpoint published (evs : list Event) : list Point :=
  match evs with
  | [] => []
  | WritePoint p _ :: rest => p :: published rest
  | _ :: rest => published rest
  end.

(** ** The operands of the dew-point formula as the specification states it *)

Module Formula.
Local Open Scope R_scope.
Definition b : R := 18.678.
Definition c : R := 257.14.
Definition d : R := 234.5.
(** gamma = ln( (rh/100) * exp( (b - t/d) * (t / (c + t)) ) ) *)
Definition log_argument (t rh : R) : R :=
  (rh / 100) * exp ((b - t / d) * (t / (c + t))).
Definition gamma (t rh : R) : R := ln (log_argument t rh).
End Formula.

(** ** What one call of [loop] amounts to *)

(** The fields [loop] adds, in order. *)
Definition loop_fields (i : LoopIn) : list (string * FieldValue) :=
  (if read_error i =? 0
   then [("temp", VFloat (temperature i)); ("hum", VFloat (humidity i))]
   else []) ++
  [("stat", VUInt16 (status i)); ("error", VInt (error_code i));
   ("dewpoint", VDouble (dewpoint_expr (Finite (dew_t i)) (Finite (dew_rh i))))].

(** The point [loop] builds from the point [p] it finds. *)
Definition loop_point (i : LoopIn) (p : Point) : Point :=
  mkPoint (measurement p) (tags p) (loop_fields i).

(** Lines 106-125, 127-129, 131-134 and 137-138 as events. *)
Definition measure_events (i : LoopIn) (p : Point) : list Event :=
  [ShtRead; ShtReadStatus; SerialPrint "Writing: ";
   SerialPrintln (line_protocol i (loop_point i p))].

Definition wifi_events (st : Z) : list Event :=
  WifiRun st ::
  (if negb (st =? WL_CONNECTED) then [SerialPrintln "Wifi connection lost"]
   else []).

Definition write_events (i : LoopIn) (p : Point) : list Event :=
  WritePoint (loop_point i p) (write_ok i) ::
  (if negb (write_ok i)
   then [SerialPrint "InfluxDB write failed: "; SerialPrintln (last_error i)]
   else []).

Definition wait_events : list Event := [SerialPrintln "Wait 1s"; Delay 1000].

Definition loop_events (i : LoopIn) (p : Point) : list Event :=
  measure_events i p ++ wifi_events (wifi_status i) ++
  write_events i p ++ wait_events.

(** ** What [setup] amounts to *)

(** The events of [n] failed attempts, the first one answered by
    [answers k]: the status check, a dot on the console, half a second. *)
Fixpoint retry_events (answers : nat -> Z) (k n : nat) : list Event :=
  match n with
  | O => []
  | S n' =>
      [WifiRun (answers k); SerialPrint "."; Delay 500] ++
      retry_events answers (S k) n'
  end.

(** Lines 63-71 as events. *)
Definition setup_prefix : list Event :=
  [SerialBegin 115200; WiFiMode "WIFI_STA"; AddAP WIFI_SSID WIFI_PASSWORD;
   WireBegin 4 5; ShtBegin SHT31_ADDRESS; SerialPrint "Connecting to wifi"].

(** Lines 76-99 as events. *)
Definition setup_suffix (i : SetupIn) : list Event :=
  [SerialPrintln EmptyString; TimeSync TZ_INFO "pool.ntp.org" "time.nis.gov";
   ValidateConnection (validate_ok i)] ++
  (if validate_ok i
   then [SerialPrint "Connected to InfluxDB: "; SerialPrintln (server_url i)]
   else [SerialPrint "InfluxDB connection failed: ";
         SerialPrintln (setup_last_error i)]).

(** ** Counting events, and changing one answer of a script *)

Definition is_delay (e : Event) : bool :=
  match e with Delay _ => true | _ => false end.
Definition is_write (e : Event) : bool :=
  match e with WritePoint _ _ => true | _ => false end.
Definition is_wifi_run (e : Event) : bool :=
  match e with WifiRun _ => true | _ => false end.
Definition count (f : Event -> bool) (evs : list Event) : nat :=
  length (filter f evs).

(** The script [i] with another answer of [client.writePoint]. *)
Definition with_write_ok (ok : bool) (i : LoopIn) : LoopIn :=
  mkLoopIn (read_error i) (temperature i) (humidity i) (status i)
           (error_code i) (dew_t i) (dew_rh i) (line_protocol i)
           (wifi_status i) ok (last_error i).

(** The script [i] with another answer of [wifiMulti.run()]. *)
Definition with_wifi_status (st : Z) (i : LoopIn) : LoopIn :=
  mkLoopIn (read_error i) (temperature i) (humidity i) (status i)
           (error_code i) (dew_t i) (dew_rh i) (line_protocol i)
           st (write_ok i) (last_error i).

(** ** A concrete run, for the examples *)

Definition demo_setup : SetupIn :=
  mkSetupIn (fun k => if (k <? 2)%nat then 6 else 3)
            "192.168.12.34" "AA:BB:CC:DD:EE:FF" true
            "http://192.168.12.1:8086" "connection refused".

Definition demo_loop (err : Z) (wifi : Z) (ok : bool) : LoopIn :=
  mkLoopIn err 20 50 32784 0 20 50 (fun _ => "temp_sensor")
           wifi ok "connection refused".

Definition demo_setup_offline : SetupIn :=
  mkSetupIn (fun _ => 6) "0.0.0.0" "AA:BB:CC:DD:EE:FF" false "none" "none".

Definition demo_reading (t rh : R) : LoopIn :=
  mkLoopIn 0 t rh 32784 0 t rh (fun _ => "temp_sensor") 3 true "none".

(** ** Further measures of a run *)

(** The milliseconds spent in [delay], summed over the events. *)
Fixpoint total_delay (evs : list Event) : Z :=
  match evs with
  | [] => 0
  | Delay ms :: rest => ms + total_delay rest
  | _ :: rest => total_delay rest
  end.

Definition is_sht_read (e : Event) : bool :=
  match e with ShtRead => true | _ => false end.
Definition is_sht_read_status (e : Event) : bool :=
  match e with ShtReadStatus => true | _ => false end.
Definition is_time_sync (e : Event) : bool :=
  match e with TimeSync _ _ _ => true | _ => false end.

(** A status check that did not answer [WL_CONNECTED]. *)
Definition is_failed_check (e : Event) : bool :=
  match e with WifiRun st => negb (st =? WL_CONNECTED) | _ => false end.

(** The keys of the fields of a point, in order. *)
Definition field_names (p : Point) : list string := map fst (fields p).

(** The script [i] with other answers of the calls of lines 93-98. *)
Definition with_validation (ok : bool) (url msg : string) (i : SetupIn)
  : SetupIn :=
  mkSetupIn (wifi_answers i) (localIP i) (softAPmac i) ok url msg.

(** Whether one of the status checks [k], ..., [k + n - 1] answers
    [WL_CONNECTED]. *)
Definition connects_within (answers : nat -> Z) (k n : nat) : bool :=
  existsb (fun j => answers j =? WL_CONNECTED) (seq k n).

(** * Properties *)

(** ** The concrete run *)

Example demo_setup_events :
  events (setup demo_setup 3 initial) =
  [SerialBegin 115200; WiFiMode "WIFI_STA"; AddAP "SSID" "passwd";
   WireBegin 4 5; ShtBegin 68; SerialPrint "Connecting to wifi";
   WifiRun 6; SerialPrint "."; Delay 500;
   WifiRun 6; SerialPrint "."; Delay 500;
   WifiRun 3; SerialPrintln EmptyString;
   TimeSync "CET-1CEST,M3.5.0,M10.5.0/3" "pool.ntp.org" "time.nis.gov";
   ValidateConnection true; SerialPrint "Connected to InfluxDB: ";
   SerialPrintln "http://192.168.12.1:8086"].
Proof. reflexivity. Qed.

Example demo_setup_tags :
  tags (sensor (final (setup demo_setup 3 initial))) =
  [("IP", "192.168.12.34"); ("MAC", "AA:BB:CC:DD:EE:FF")].
Proof. reflexivity. Qed.

Example demo_setup_waiting :
  result (setup demo_setup 2 initial) = false.
Proof. reflexivity. Qed.

Example demo_loop_fields_ok :
  fields (sensor (final (loop (demo_loop 0 3 true) initial))) =
  [("temp", VFloat 20); ("hum", VFloat 50); ("stat", VUInt16 32784);
   ("error", VInt 0);
   ("dewpoint", VDouble (dewpoint_expr (Finite 20) (Finite 50)))].
Proof. reflexivity. Qed.

Example demo_loop_fields_err :
  fields (sensor (final (loop (demo_loop 4 3 true) initial))) =
  [("stat", VUInt16 32784); ("error", VInt 0);
   ("dewpoint", VDouble (dewpoint_expr (Finite 20) (Finite 50)))].
Proof. reflexivity. Qed.

(** A field left on the point by whatever ran before is gone from the
    published point. *)
Example demo_stale_field_gone :
  let stale :=
    mkSketch (mkPoint "temp_sensor" [("IP", "192.168.12.34")]
                      [("temp", VFloat 99); ("old", VInt 1)]) 7 in
  published (events (loop (demo_loop 4 3 true) stale)) =
  [mkPoint "temp_sensor" [("IP", "192.168.12.34")]
     [("stat", VUInt16 32784); ("error", VInt 0);
      ("dewpoint", VDouble (dewpoint_expr (Finite 20) (Finite 50)))]].
Proof. reflexivity. Qed.

Example demo_loop_events_failed_write :
  events (loop (demo_loop 0 6 false) initial) =
  [ShtRead; ShtReadStatus; SerialPrint "Writing: ";
   SerialPrintln "temp_sensor"; WifiRun 6;
   SerialPrintln "Wifi connection lost";
   WritePoint (sensor (final (loop (demo_loop 0 6 false) initial))) false;
   SerialPrint "InfluxDB write failed: ";
   SerialPrintln "connection refused";
   SerialPrintln "Wait 1s"; Delay 1000].
Proof. reflexivity. Qed.

(** ** One call of [loop] *)

Lemma loop_unfold (i : LoopIn) (s : Sketch) :
  loop i s =
  (tt, mkSketch (loop_point i (sensor s)) (read_error i),
   loop_events i (sensor s)).
Proof.
  unfold loop_events, measure_events, wifi_events, write_events, wait_events,
    loop_point, loop_fields.
  unfold loop, bind, sht_getError, set_error, get_error, ret; cbn.
  destruct (read_error i =? 0); cbn;
    destruct (wifi_status i =? WL_CONNECTED); cbn;
    destruct (write_ok i); reflexivity.
Qed.

Lemma loop_final (i : LoopIn) (s : Sketch) :
  final (loop i s) = mkSketch (loop_point i (sensor s)) (read_error i).
Proof. now rewrite loop_unfold. Qed.

Lemma published_app (e1 e2 : list Event) :
  published (e1 ++ e2) = published e1 ++ published e2.
Proof.
  induction e1 as [|e e1 IH]; [reflexivity|].
  destruct e; cbn; rewrite IH; reflexivity.
Qed.

Lemma loop_published (i : LoopIn) (s : Sketch) :
  published (events (loop i s)) = [loop_point i (sensor s)].
Proof.
  rewrite loop_unfold. unfold events, loop_events; cbn [snd].
  rewrite !published_app.
  unfold measure_events, wifi_events, write_events, wait_events.
  destruct (negb (wifi_status i =? WL_CONNECTED)), (negb (write_ok i));
    reflexivity.
Qed.

Lemma loop_fields_temp (i : LoopIn) :
  lookup "temp" (loop_fields i) =
  if read_error i =? 0 then Some (VFloat (temperature i)) else None.
Proof. unfold loop_fields. destruct (read_error i =? 0); reflexivity. Qed.

Lemma loop_fields_hum (i : LoopIn) :
  lookup "hum" (loop_fields i) =
  if read_error i =? 0 then Some (VFloat (humidity i)) else None.
Proof. unfold loop_fields. destruct (read_error i =? 0); reflexivity. Qed.

(** C1: in every call of [loop] the point handed to [writePoint] has the
    fields "temp" and "hum" if and only if the error code stored in the
    global [error] by that call is zero; with a nonzero code both are
    absent, with a zero code they hold what the driver returned. *)
Theorem loop_temp_hum_iff_no_error (i : LoopIn) (s : Sketch) :
  exists p : Point,
    published (events (loop i s)) = [p] /\
    sensor (final (loop i s)) = p /\
    error (final (loop i s)) = read_error i /\
    (hasField "temp" p = true <-> error (final (loop i s)) = 0) /\
    (hasField "hum" p = true <-> error (final (loop i s)) = 0) /\
    (error (final (loop i s)) = 0 ->
       lookup "temp" (fields p) = Some (VFloat (temperature i)) /\
       lookup "hum" (fields p) = Some (VFloat (humidity i))) /\
    (error (final (loop i s)) <> 0 ->
       lookup "temp" (fields p) = None /\ lookup "hum" (fields p) = None).
Proof.
  exists (loop_point i (sensor s)).
  rewrite loop_published, loop_final. cbn [sensor error].
  unfold hasField. cbn [fields loop_point].
  rewrite loop_fields_temp, loop_fields_hum.
  destruct (read_error i =? 0) eqn:E.
  - apply Z.eqb_eq in E. repeat split; auto; congruence.
  - apply Z.eqb_neq in E. repeat split; auto; try congruence; intros; tauto.
Qed.

Lemma loop_temp_hum_iff_no_error_witness :
  exists p : Point,
    published (events (loop (demo_loop 4 3 true) initial)) = [p] /\
    hasField "temp" p = false /\ hasField "hum" p = false.
Proof.
  destruct (loop_temp_hum_iff_no_error (demo_loop 4 3 true) initial)
    as (p & Hp & _ & He & _ & _ & _ & Hn).
  exists p. split; [exact Hp|].
  assert (Hne : error (final (loop (demo_loop 4 3 true) initial)) <> 0)
    by (rewrite He; cbn; lia).
  destruct (Hn Hne) as [Ht Hh]. unfold hasField. rewrite Ht, Hh. auto.
Defined.

(** C3: every call of [loop] adds the field "dewpoint", whatever the error
    code was; its value is the dew-point expression at the temperature and
    humidity the driver returns at lines 115-116, and it is the last field
    of the published point. *)
Theorem loop_dewpoint_unconditional (i : LoopIn) (s : Sketch) :
  exists (p : Point) (earlier : list (string * FieldValue)),
    published (events (loop i s)) = [p] /\
    fields p =
      earlier ++
      [("dewpoint",
        VDouble (dewpoint_expr (Finite (dew_t i)) (Finite (dew_rh i))))] /\
    lookup "dewpoint" (fields p) =
      Some (VDouble (dewpoint_expr (Finite (dew_t i)) (Finite (dew_rh i)))).
Proof.
  exists (loop_point i (sensor s)).
  exists ((if read_error i =? 0
           then [("temp", VFloat (temperature i)); ("hum", VFloat (humidity i))]
           else []) ++
          [("stat", VUInt16 (status i)); ("error", VInt (error_code i))]).
  rewrite loop_published. cbn [fields loop_point]. unfold loop_fields.
  destruct (read_error i =? 0); repeat split; reflexivity.
Qed.

(** C4: every call of [loop] records the answer of [sht.readStatus()] as
    the field "stat" and the answer of the [sht.getError()] call of line 114
    as the field "error", whatever the error code was. *)
Theorem loop_status_error_recorded (i : LoopIn) (s : Sketch) :
  exists p : Point,
    published (events (loop i s)) = [p] /\
    sensor (final (loop i s)) = p /\
    lookup "stat" (fields p) = Some (VUInt16 (status i)) /\
    lookup "error" (fields p) = Some (VInt (error_code i)).
Proof.
  exists (loop_point i (sensor s)).
  rewrite loop_published, loop_final. cbn [sensor fields loop_point].
  unfold loop_fields.
  destruct (read_error i =? 0); repeat split; reflexivity.
Qed.

(** ** Several iterations *)

Lemma loops_cons (i : LoopIn) (rest : list LoopIn) (s : Sketch) :
  loops (i :: rest) s =
  (tt, final (loops rest (final (loop i s))),
   events (loop i s) ++ events (loops rest (final (loop i s)))).
Proof.
  cbn [loops]. unfold bind.
  destruct (loop i s) as [[u s1] e1]. cbn [final events fst snd].
  destruct (loops rest s1) as [[u2 s2] e2]. destruct u2. reflexivity.
Qed.

Lemma loops_published (script : list LoopIn) (s : Sketch) :
  published (events (loops script s)) =
  map (fun i => loop_point i (sensor s)) script.
Proof.
  revert s. induction script as [|i rest IH]; intros s; [reflexivity|].
  rewrite loops_cons. cbn [events snd]. rewrite published_app.
  change (snd (loop i s)) with (events (loop i s)).
  change (snd (loops rest (final (loop i s))))
    with (events (loops rest (final (loop i s)))).
  rewrite loop_published, IH, loop_final. cbn [sensor map app].
  f_equal.
Qed.

Lemma loops_tags (script : list LoopIn) (s : Sketch) :
  tags (sensor (final (loops script s))) = tags (sensor s).
Proof.
  revert s. induction script as [|i rest IH]; intros s; [reflexivity|].
  rewrite loops_cons. cbn [final fst snd].
  change (snd (fst (loops rest (final (loop i s)))))
    with (final (loops rest (final (loop i s)))).
  rewrite IH, loop_final. reflexivity.
Qed.

(** C5: [loop] starts by clearing the fields of the point, and the fields
    of every published point are exactly the ones added in the iteration
    that published it: over any number of iterations, from any state, the
    [k]-th published point carries the fields computed from the [k]-th
    iteration's answers and nothing left by an earlier one. *)
Theorem loop_fields_do_not_leak (script : list LoopIn) (s : Sketch) :
  fields (sensor (final (sensor_clearFields s))) = [] /\
  map fields (published (events (loops script s))) = map loop_fields script /\
  (forall s' : Sketch,
     map fields (published (events (loops script s'))) =
     map fields (published (events (loops script s)))).
Proof.
  split; [reflexivity|].
  assert (H : forall s0, map fields (published (events (loops script s0))) =
                         map loop_fields script).
  { intros s0. rewrite loops_published, map_map. reflexivity. }
  split; [apply H|]. intros s'. now rewrite !H.
Qed.

(** ** The association wait of [setup] *)

Lemma wait_for_wifi_failing (answers : nat -> Z) (fuel k : nat) (s : Sketch) :
  (forall j, (k <= j < k + fuel)%nat -> answers j <> WL_CONNECTED) ->
  wait_for_wifi answers k fuel s = (false, s, retry_events answers k fuel).
Proof.
  revert k. induction fuel as [|fuel IH]; intros k H; [reflexivity|].
  cbn [wait_for_wifi retry_events].
  assert (Hk : (answers k =? WL_CONNECTED) = false)
    by (apply Z.eqb_neq, H; lia).
  unfold bind, wifiMulti_run, emit, ret, Serial_print, delay; cbn.
  change 3 with WL_CONNECTED. rewrite Hk; cbn.
  rewrite IH by (intros j Hj; apply H; lia). reflexivity.
Qed.

Lemma wait_for_wifi_connects (answers : nat -> Z) (n fuel k : nat) (s : Sketch) :
  (forall j, (k <= j < k + n)%nat -> answers j <> WL_CONNECTED) ->
  answers (k + n)%nat = WL_CONNECTED ->
  (n < fuel)%nat ->
  wait_for_wifi answers k fuel s =
  (true, s, retry_events answers k n ++ [WifiRun WL_CONNECTED]).
Proof.
  revert k fuel. induction n as [|n IH]; intros k fuel H Hc Hf.
  - destruct fuel as [|fuel]; [lia|].
    rewrite Nat.add_0_r in Hc.
    cbn [wait_for_wifi retry_events].
    unfold bind, wifiMulti_run, emit, ret; cbn.
    rewrite Hc. reflexivity.
  - destruct fuel as [|fuel]; [lia|].
    cbn [wait_for_wifi retry_events].
    assert (Hk : (answers k =? WL_CONNECTED) = false)
      by (apply Z.eqb_neq, H; lia).
    unfold bind, wifiMulti_run, emit, ret, Serial_print, delay; cbn.
    change 3 with WL_CONNECTED. rewrite Hk; cbn.
    rewrite (IH (S k) fuel).
    + reflexivity.
    + intros j Hj. apply H. lia.
    + rewrite <- Hc. f_equal. lia.
    + lia.
Qed.

Lemma setup_unfold (i : SetupIn) (fuel : nat) (s : Sketch) :
  let w := wait_for_wifi (wifi_answers i) 0 fuel s in
  setup i fuel s =
  if result w then
    (true,
     mkSketch (addTag "MAC" (softAPmac i) (addTag "IP" (localIP i)
                 (sensor (final w)))) (error (final w)),
     setup_prefix ++ events w ++ setup_suffix i)
  else (false, final w, setup_prefix ++ events w).
Proof.
  cbn zeta. unfold setup, bind at 1 2 3 4 5 6; cbn.
  unfold bind at 1.
  destruct (wait_for_wifi (wifi_answers i) 0 fuel s) as [[r s1] e1].
  unfold result, final, events; cbn [fst snd].
  destruct r.
  - unfold setup_suffix, bind, ret; cbn.
    destruct (validate_ok i); cbn; rewrite ?app_nil_r; reflexivity.
  - unfold ret. rewrite app_nil_r. reflexivity.
Qed.

Lemma wait_for_wifi_final (answers : nat -> Z) (fuel k : nat) (s : Sketch) :
  final (wait_for_wifi answers k fuel s) = s.
Proof.
  revert k. induction fuel as [|fuel IH]; intros k; [reflexivity|].
  cbn [wait_for_wifi].
  unfold bind, wifiMulti_run, emit, ret, Serial_print, delay; cbn.
  destruct (negb (answers k =? WL_CONNECTED)); cbn; [|reflexivity].
  specialize (IH (S k)).
  destruct (wait_for_wifi answers (S k) fuel s) as [[r s1] e1].
  exact IH.
Qed.

Lemma count_app (f : Event -> bool) (e1 e2 : list Event) :
  count f (e1 ++ e2) = (count f e1 + count f e2)%nat.
Proof. unfold count. now rewrite filter_app, length_app. Qed.

(** The number of [delay] calls of the wait is the number of failed
    attempts. *)
Lemma retry_events_delays (answers : nat -> Z) (k n : nat) :
  count is_delay (retry_events answers k n) = n.
Proof.
  revert k. induction n as [|n IH]; intros k; [reflexivity|].
  cbn [retry_events]. unfold count in *. cbn. now rewrite IH.
Qed.

Lemma setup_suffix_delays (i : SetupIn) :
  count is_delay (setup_suffix i) = 0%nat.
Proof. unfold setup_suffix. destruct (validate_ok i); reflexivity. Qed.

(** C8: [setup] waits for the association in a loop without a bound.  While
    every status check so far has failed, [setup] is still in the wait,
    however many checks that is: each failed check is followed by a dot on
    the console and a delay of 500 ms, and nothing after the wait has run
    (no tag, no time sync).  When the check answers [WL_CONNECTED] for the
    first time, at attempt [n], the wait ends at that check and [setup] runs
    to its end. *)
Theorem setup_waits_for_association (i : SetupIn) (s : Sketch) :
  (forall fuel : nat,
     (forall k, (k < fuel)%nat -> wifi_answers i k <> WL_CONNECTED) ->
     setup i fuel s =
       (false, s, setup_prefix ++ retry_events (wifi_answers i) 0 fuel) /\
     count is_delay (events (setup i fuel s)) = fuel) /\
  (forall n fuel : nat,
     (forall k, (k < n)%nat -> wifi_answers i k <> WL_CONNECTED) ->
     wifi_answers i n = WL_CONNECTED ->
     (n < fuel)%nat ->
     result (setup i fuel s) = true /\
     events (setup i fuel s) =
       setup_prefix ++ retry_events (wifi_answers i) 0 n ++
       [WifiRun WL_CONNECTED] ++ setup_suffix i /\
     count is_delay (events (setup i fuel s)) = n).
Proof.
  split.
  - intros fuel H. generalize (setup_unfold i fuel s); cbn zeta.
    rewrite (wait_for_wifi_failing (wifi_answers i) fuel 0 s)
      by (intros j Hj; apply H; lia).
    intros ->. cbn [result events fst snd]. split; [reflexivity|].
    rewrite count_app, retry_events_delays. reflexivity.
  - intros n fuel H Hc Hf. generalize (setup_unfold i fuel s); cbn zeta.
    rewrite (wait_for_wifi_connects (wifi_answers i) n fuel 0 s)
      by (try (intros j Hj; apply H); try exact Hc; lia).
    intros ->. cbn [result events fst snd]. split; [reflexivity|].
    split; [rewrite <- app_assoc; reflexivity|].
    rewrite !count_app, retry_events_delays, setup_suffix_delays.
    cbn. lia.
Qed.

Lemma setup_waits_for_association_witness :
  (forall fuel : nat,
     setup demo_setup_offline fuel initial =
       (false, initial, setup_prefix ++ retry_events (fun _ => 6) 0 fuel) /\
     count is_delay (events (setup demo_setup_offline fuel initial)) = fuel) /\
  result (setup demo_setup 3 initial) = true /\
  events (setup demo_setup 3 initial) =
    setup_prefix ++
    [WifiRun 6; SerialPrint "."; Delay 500;
     WifiRun 6; SerialPrint "."; Delay 500; WifiRun 3] ++
    setup_suffix demo_setup /\
  count is_delay (events (setup demo_setup 3 initial)) = 2%nat.
Proof.
  split.
  - intros fuel.
    apply (proj1 (setup_waits_for_association demo_setup_offline initial)).
    intros k _. cbn. unfold WL_CONNECTED. lia.
  - apply (proj2 (setup_waits_for_association demo_setup initial) 2%nat 3%nat).
    + intros k Hk. unfold WL_CONNECTED.
      destruct k as [|[|k]]; cbn; lia.
    + reflexivity.
    + lia.
Defined.

(** C6: when [setup] has returned, the point carries exactly the two tags
    "IP" and "MAC" with the addresses the WiFi library reported; clearing
    the fields leaves the tags as they are, and over any number of
    iterations every published point, and the point itself, still carries
    exactly these two tags. *)
Theorem tags_set_once_and_kept (i : SetupIn) (fuel : nat)
    (script : list LoopIn) :
  result (setup i fuel initial) = true ->
  let s0 := final (setup i fuel initial) in
  let both := [("IP", localIP i); ("MAC", softAPmac i)] in
  tags (sensor s0) = both /\
  (forall s, tags (sensor (final (sensor_clearFields s))) = tags (sensor s)) /\
  length (published (events (loops script s0))) = length script /\
  Forall (fun p => tags p = both) (published (events (loops script s0))) /\
  tags (sensor (final (loops script s0))) = both.
Proof.
  intros Hdone s0 both.
  assert (H0 : tags (sensor s0) = both).
  { subst s0 both. revert Hdone.
    generalize (setup_unfold i fuel initial); cbn zeta. intros ->.
    rewrite wait_for_wifi_final.
    destruct (result (wait_for_wifi (wifi_answers i) 0 fuel initial));
      [reflexivity | discriminate]. }
  split; [exact H0|]. split; [reflexivity|].
  rewrite loops_published, loops_tags, length_map.
  split; [reflexivity|]. split; [|exact H0].
  apply Forall_forall. intros p Hp. apply in_map_iff in Hp.
  destruct Hp as (j & <- & _). exact H0.
Qed.

Lemma tags_set_once_and_kept_witness :
  Forall (fun p => tags p = [("IP", "192.168.12.34");
                             ("MAC", "AA:BB:CC:DD:EE:FF")])
    (published (events
       (loops [demo_loop 0 3 true; demo_loop 4 6 false]
          (final (setup demo_setup 3 initial))))).
Proof.
  apply (tags_set_once_and_kept demo_setup 3
           [demo_loop 0 3 true; demo_loop 4 6 false]).
  reflexivity.
Defined.

(** ** Failures inside an iteration *)

Lemma loop_counts (i : LoopIn) (s : Sketch) :
  count is_write (events (loop i s)) = 1%nat /\
  count is_delay (events (loop i s)) = 1%nat /\
  count is_wifi_run (events (loop i s)) = 1%nat.
Proof.
  rewrite loop_unfold.
  unfold events, loop_events, measure_events, wifi_events, write_events,
    wait_events; cbn [snd].
  destruct (negb (wifi_status i =? WL_CONNECTED)), (negb (write_ok i));
    repeat split; reflexivity.
Qed.

(** C7: when [client.writePoint] fails, the iteration prints
    "InfluxDB write failed: " and the client's last error message and goes
    on: the point is handed to the client once, the globals end as they do
    after a successful write (nothing is kept for a later attempt), and the
    iteration ends with the same "Wait 1s" and the same single
    [delay(1000)] as on success. *)
Theorem failed_write_logged_and_dropped (i : LoopIn) (s : Sketch) :
  write_ok i = false ->
  exists (before : list Event) (p : Point),
    events (loop i s) =
      before ++
      [WritePoint p false; SerialPrint "InfluxDB write failed: ";
       SerialPrintln (last_error i); SerialPrintln "Wait 1s"; Delay 1000] /\
    events (loop (with_write_ok true i) s) =
      before ++ [WritePoint p true; SerialPrintln "Wait 1s"; Delay 1000] /\
    count is_write before = 0%nat /\
    count is_delay before = 0%nat /\
    result (loop i s) = tt /\
    final (loop i s) = final (loop (with_write_ok true i) s).
Proof.
  intros Hw.
  exists (measure_events i (sensor s) ++ wifi_events (wifi_status i)).
  exists (loop_point i (sensor s)).
  rewrite !loop_unfold.
  unfold events, final, result, loop_events, write_events, wait_events;
    cbn [fst snd].
  rewrite Hw. cbn [negb with_write_ok write_ok wifi_status].
  rewrite <- !app_assoc.
  repeat split; try reflexivity.
  - unfold measure_events, wifi_events.
    destruct (negb (wifi_status i =? WL_CONNECTED)); reflexivity.
  - unfold measure_events, wifi_events.
    destruct (negb (wifi_status i =? WL_CONNECTED)); reflexivity.
Qed.

Lemma failed_write_logged_and_dropped_witness :
  exists (before : list Event) (p : Point),
    events (loop (demo_loop 0 3 false) initial) =
      before ++
      [WritePoint p false; SerialPrint "InfluxDB write failed: ";
       SerialPrintln "connection refused"; SerialPrintln "Wait 1s";
       Delay 1000] /\
    final (loop (demo_loop 0 3 false) initial) =
    final (loop (demo_loop 0 3 true) initial).
Proof.
  destruct (failed_write_logged_and_dropped (demo_loop 0 3 false) initial
              eq_refl) as (before & p & H1 & _ & _ & _ & _ & H2).
  exists before, p. split; [exact H1 | exact H2].
Defined.

(** C9: when the status check of line 127 does not answer [WL_CONNECTED],
    the iteration prints "Wifi connection lost" and does nothing else about
    it: everything before the check is as with a connection, the check is
    made once, the same point is handed to [client.writePoint] right after
    the warning, the rest of the iteration is the same, and so are the
    globals at its end. *)
Theorem lost_association_only_logged (i : LoopIn) (s : Sketch) :
  wifi_status i <> WL_CONNECTED ->
  exists (before after : list Event) (p : Point),
    events (loop i s) =
      before ++
      [WifiRun (wifi_status i); SerialPrintln "Wifi connection lost";
       WritePoint p (write_ok i)] ++ after /\
    events (loop (with_wifi_status WL_CONNECTED i) s) =
      before ++ [WifiRun WL_CONNECTED; WritePoint p (write_ok i)] ++ after /\
    fields p = loop_fields i /\
    before = [ShtRead; ShtReadStatus; SerialPrint "Writing: ";
              SerialPrintln (line_protocol i p)] /\
    count is_wifi_run (events (loop i s)) = 1%nat /\
    count is_delay (events (loop i s)) = 1%nat /\
    final (loop i s) = final (loop (with_wifi_status WL_CONNECTED i) s).
Proof.
  intros Hl. apply Z.eqb_neq in Hl.
  exists (measure_events i (sensor s)).
  exists ((if negb (write_ok i)
           then [SerialPrint "InfluxDB write failed: ";
                 SerialPrintln (last_error i)]
           else []) ++ wait_events).
  exists (loop_point i (sensor s)).
  destruct (loop_counts i s) as (_ & Hd & Hr).
  rewrite Hd, Hr. rewrite !loop_unfold.
  unfold events, final, loop_events, wifi_events, write_events; cbn [fst snd].
  cbn [with_wifi_status wifi_status write_ok last_error].
  rewrite Hl. cbn [negb].
  repeat split; reflexivity.
Qed.

Lemma lost_association_only_logged_witness :
  exists (before after : list Event) (p : Point),
    events (loop (demo_loop 0 6 true) initial) =
      before ++
      [WifiRun 6; SerialPrintln "Wifi connection lost"; WritePoint p true] ++
      after /\
    fields p = loop_fields (demo_loop 0 6 true).
Proof.
  destruct (lost_association_only_logged (demo_loop 0 6 true) initial)
    as (before & after & p & H1 & _ & H2 & _).
  - unfold WL_CONNECTED. cbn. lia.
  - exists before, after, p. split; [exact H1 | exact H2].
Defined.

Lemma loop_dewpoint_value (i : LoopIn) (s : Sketch) :
  exists p : Point,
    published (events (loop i s)) = [p] /\
    lookup "dewpoint" (fields p) =
      Some (VDouble (dewpoint_expr (Finite (dew_t i)) (Finite (dew_rh i)))).
Proof.
  exists (loop_point i (sensor s)). rewrite loop_published.
  split; [reflexivity|]. cbn [fields loop_point]. unfold loop_fields.
  destruct (read_error i =? 0); reflexivity.
Qed.

(** ** The dew point *)

Section DewPoint.
Local Open Scope R_scope.

Lemma log_argument_nonpos (t rh : R) :
  rh <= 0 -> Formula.log_argument t rh <= 0.
Proof.
  intros H. unfold Formula.log_argument.
  pose proof (exp_pos ((Formula.b - t / Formula.d) * (t / (Formula.c + t)))).
  assert (rh / 100 <= 0) by lra. nra.
Qed.

(** Outside that domain the expression has no finite value. *)
Lemma dewpoint_expr_undefined (t rh : R) :
  rh <= 0 \/ Formula.c + t = 0 \/ Formula.gamma t rh = Formula.b ->
  dewpoint_expr (Finite t) (Finite rh) = NotFinite.
Proof.
  intros H.
  unfold Formula.gamma, Formula.b, Formula.c in H.
  pose proof (log_argument_nonpos t rh) as Hneg.
  unfold Formula.log_argument, Formula.b, Formula.c, Formula.d in *.
  unfold dewpoint_expr; cbn [ddiv dadd dsub dmul dlift2].
  destruct (Req_dec_T 100 0) as [E|_]; [lra|].
  destruct (Req_dec_T 234.5 0) as [E|_]; [lra|].
  destruct (Req_dec_T (257.14 + t) 0) as [E|Hct]; [reflexivity|].
  cbn [dexp dlog dmul dsub dlift2].
  destruct (Rlt_dec 0 (rh / 100 * exp ((18.678 - t / 234.5) *
                                       (t / (257.14 + t))))) as [P|_];
    [|reflexivity].
  cbn [ddiv].
  match goal with |- context [Req_dec_T ?x 0] =>
    destruct (Req_dec_T x 0) as [_|N] end; [reflexivity|].
  exfalso. destruct H as [H|[H|H]]; [specialize (Hneg H); lra | lra | lra].
Qed.

Lemma gamma_at_b : Formula.gamma 0 (100 * exp Formula.b) = Formula.b.
Proof.
  unfold Formula.gamma, Formula.log_argument.
  replace (100 * exp Formula.b / 100) with (exp Formula.b) by lra.
  replace ((Formula.b - 0 / Formula.d) * (0 / (Formula.c + 0))) with 0
    by (unfold Rdiv; ring).
  rewrite exp_0, Rmult_1_r. apply ln_exp.
Qed.

End DewPoint.

(** C10: nothing in [loop] checks the operands of the dew-point expression.
    When the humidity is not positive the argument of [log] is not positive,
    when [t = -c] the divisor [c + t] is zero, and when [gamma = b] the
    divisor [b - gamma] is zero; in each case the expression has no finite
    value, and the field "dewpoint" is added to the published point with
    that value all the same. *)
Theorem dewpoint_unguarded (i : LoopIn) (s : Sketch) :
  (dew_rh i <= 0 \/ Formula.c + dew_t i = 0 \/
   Formula.gamma (dew_t i) (dew_rh i) = Formula.b)%R ->
  exists p : Point,
    published (events (loop i s)) = [p] /\
    lookup "dewpoint" (fields p) = Some (VDouble NotFinite) /\
    dewpoint_expr (Finite (dew_t i)) (Finite (dew_rh i)) = NotFinite /\
    (dew_rh i <= 0 -> Formula.log_argument (dew_t i) (dew_rh i) <= 0)%R /\
    (Formula.gamma (dew_t i) (dew_rh i) = Formula.b ->
     Formula.b - Formula.gamma (dew_t i) (dew_rh i) = 0)%R.
Proof.
  intros H.
  destruct (loop_dewpoint_value i s) as (p & Hp & Hv).
  exists p. split; [exact Hp|].
  rewrite Hv, (dewpoint_expr_undefined _ _ H).
  split; [reflexivity|]. split; [reflexivity|].
  split; [apply log_argument_nonpos|].
  intros ->. apply Rminus_diag.
Qed.

Lemma dewpoint_unguarded_witness :
  (exists p, published (events (loop (demo_reading 20 0) initial)) = [p] /\
             lookup "dewpoint" (fields p) = Some (VDouble NotFinite)) /\
  (exists p, published (events (loop (demo_reading (-257.14) 50) initial))
               = [p] /\
             lookup "dewpoint" (fields p) = Some (VDouble NotFinite)) /\
  (exists p, published (events
               (loop (demo_reading 0 (100 * exp Formula.b)) initial)) = [p] /\
             lookup "dewpoint" (fields p) = Some (VDouble NotFinite)).
Proof.
  split; [|split].
  - destruct (dewpoint_unguarded (demo_reading 20 0) initial)
      as (p & Hp & Hv & _).
    + left. cbn. lra.
    + exists p. split; [exact Hp | exact Hv].
  - destruct (dewpoint_unguarded (demo_reading (-257.14) 50) initial)
      as (p & Hp & Hv & _).
    + right; left. cbn. unfold Formula.c. lra.
    + exists p. split; [exact Hp | exact Hv].
  - destruct (dewpoint_unguarded
                (demo_reading 0 (100 * exp Formula.b)) initial)
      as (p & Hp & Hv & _).
    + right; right. cbn. exact gamma_at_b.
    + exists p. split; [exact Hp | exact Hv].
Defined.

(** * Further properties of [setup] and [loop] *)

(** ** The association wait *)

Lemma wait_for_wifi_step (answers : nat -> Z) (k fuel : nat) (s : Sketch) :
  wait_for_wifi answers k (S fuel) s =
  if answers k =? WL_CONNECTED
  then (true, s, [WifiRun (answers k)])
  else (result (wait_for_wifi answers (S k) fuel s),
        final (wait_for_wifi answers (S k) fuel s),
        [WifiRun (answers k); SerialPrint "."; Delay 500] ++
        events (wait_for_wifi answers (S k) fuel s)).
Proof.
  cbn [wait_for_wifi].
  unfold bind, wifiMulti_run, emit, ret, Serial_print, delay; cbn.
  change 3 with WL_CONNECTED.
  destruct (answers k =? WL_CONNECTED); cbn; [reflexivity|].
  destruct (wait_for_wifi answers (S k) fuel s) as [[r s1] e1]. reflexivity.
Qed.

Lemma wait_for_wifi_result (answers : nat -> Z) (k fuel : nat) (s : Sketch) :
  result (wait_for_wifi answers k fuel s) = connects_within answers k fuel.
Proof.
  revert k. induction fuel as [|fuel IH]; intros k; [reflexivity|].
  rewrite wait_for_wifi_step. unfold connects_within in *. cbn [seq existsb].
  destruct (answers k =? WL_CONNECTED); [reflexivity|].
  cbn [result fst orb]. apply IH.
Qed.

Lemma setup_result (i : SetupIn) (fuel : nat) (s : Sketch) :
  result (setup i fuel s) = connects_within (wifi_answers i) 0 fuel.
Proof.
  generalize (setup_unfold i fuel s); cbn zeta. intros ->.
  rewrite <- (wait_for_wifi_result (wifi_answers i) 0 fuel s).
  destruct (result (wait_for_wifi (wifi_answers i) 0 fuel s)); reflexivity.
Qed.

(** X1: [setup] returns within [fuel] status checks exactly when one of the
    first [fuel] checks answers [WL_CONNECTED]. *)
Theorem setup_returns_iff_connected (i : SetupIn) (fuel : nat) (s : Sketch) :
  result (setup i fuel s) = true <->
  exists n : nat, (n < fuel)%nat /\ wifi_answers i n = WL_CONNECTED.
Proof.
  rewrite setup_result. unfold connects_within. rewrite existsb_exists.
  split.
  - intros (n & Hin & Hn). apply in_seq in Hin. apply Z.eqb_eq in Hn.
    exists n. split; [lia | exact Hn].
  - intros (n & Hlt & Hn). exists n. split.
    + apply in_seq. lia.
    + now apply Z.eqb_eq.
Qed.

Lemma setup_returns_iff_connected_witness :
  result (setup demo_setup 3 initial) = true /\
  result (setup demo_setup_offline 1000 initial) = false.
Proof.
  split.
  - apply (proj2 (setup_returns_iff_connected demo_setup 3 initial)).
    exists 2%nat. split; [lia | reflexivity].
  - destruct (result (setup demo_setup_offline 1000 initial)) eqn:E;
      [|reflexivity].
    apply (proj1 (setup_returns_iff_connected demo_setup_offline 1000 initial))
      in E.
    destruct E as (n & _ & Hn). cbn in Hn. unfold WL_CONNECTED in Hn. lia.
Defined.

(** ** What [setup] leaves alone *)

Lemma published_length (evs : list Event) :
  length (published evs) = count is_write evs.
Proof.
  induction evs as [|e evs IH]; [reflexivity|].
  destruct e; cbn; unfold count in *; cbn; rewrite ?IH; reflexivity.
Qed.

Lemma wait_for_wifi_count (f : Event -> bool) (answers : nat -> Z)
    (k fuel : nat) (s : Sketch) :
  (forall st, f (WifiRun st) = false) ->
  f (SerialPrint ".") = false ->
  f (Delay 500) = false ->
  count f (events (wait_for_wifi answers k fuel s)) = 0%nat.
Proof.
  intros Hr Hp Hd. revert k.
  induction fuel as [|fuel IH]; intros k; [reflexivity|].
  rewrite wait_for_wifi_step.
  destruct (answers k =? WL_CONNECTED); cbn [events snd].
  - unfold count. cbn. now rewrite Hr.
  - rewrite count_app. change (snd ?x) with (events x).
    rewrite IH. unfold count. cbn. now rewrite Hr, Hp, Hd.
Qed.

Lemma setup_final (i : SetupIn) (fuel : nat) (s : Sketch) :
  final (setup i fuel s) =
  if result (setup i fuel s)
  then mkSketch (addTag "MAC" (softAPmac i) (addTag "IP" (localIP i) (sensor s)))
                (error s)
  else s.
Proof.
  generalize (setup_unfold i fuel s); cbn zeta. intros ->.
  rewrite wait_for_wifi_final.
  destruct (result (wait_for_wifi (wifi_answers i) 0 fuel s)); reflexivity.
Qed.

Lemma setup_count (f : Event -> bool) (i : SetupIn) (fuel : nat) (s : Sketch) :
  (forall st, f (WifiRun st) = false) ->
  (forall str, f (SerialPrint str) = false) ->
  (forall str, f (SerialPrintln str) = false) ->
  (forall ms, f (Delay ms) = false) ->
  (forall ok, f (ValidateConnection ok) = false) ->
  count f (events (setup i fuel s)) =
  (count f setup_prefix +
   if result (setup i fuel s)
   then count f [TimeSync TZ_INFO "pool.ntp.org" "time.nis.gov"]
   else 0)%nat.
Proof.
  intros Hr Hp Hl Hd Hv.
  generalize (setup_unfold i fuel s); cbn zeta. intros ->.
  pose proof (wait_for_wifi_count f (wifi_answers i) 0 fuel s Hr (Hp _) (Hd _))
    as Hw.
  destruct (result (wait_for_wifi (wifi_answers i) 0 fuel s));
    cbn [events result fst snd]; rewrite !count_app, Hw.
  - unfold setup_suffix.
    destruct (validate_ok i); unfold count; cbn;
      rewrite ?Hp, ?Hl, ?Hv, ?Hd; cbn; destruct (f _); cbn; lia.
  - lia.
Qed.

(** X3: [setup] writes no point and reads no sensor value, and it leaves the
    fields of the point, its measurement name and the global [error] as it
    found them; it synchronises the time once when it returns and not at all
    while it waits for the association. *)
Theorem setup_frame (i : SetupIn) (fuel : nat) (s : Sketch) :
  published (events (setup i fuel s)) = [] /\
  count is_sht_read (events (setup i fuel s)) = 0%nat /\
  count is_sht_read_status (events (setup i fuel s)) = 0%nat /\
  count is_time_sync (events (setup i fuel s)) =
    (if result (setup i fuel s) then 1 else 0)%nat /\
  fields (sensor (final (setup i fuel s))) = fields (sensor s) /\
  measurement (sensor (final (setup i fuel s))) = measurement (sensor s) /\
  error (final (setup i fuel s)) = error s.
Proof.
  split.
  { apply length_zero_iff_nil. rewrite published_length.
    rewrite setup_count by reflexivity.
    destruct (result (setup i fuel s)); reflexivity. }
  rewrite !setup_count by reflexivity.
  rewrite setup_final.
  destruct (result (setup i fuel s)); repeat split; reflexivity.
Qed.

(** X4: a failed [client.validateConnection()] does not stop [setup]: it
    returns with the same globals as after a successful validation, and the
    events differ only in the two lines printed after the validation, the
    server URL on success and the client's last error message on failure. *)
Theorem setup_validation_not_fatal (i : SetupIn) (fuel : nat) (s : Sketch) :
  result (setup i fuel s) = true ->
  exists before : list Event,
    forall (ok : bool) (url msg : string),
      result (setup (with_validation ok url msg i) fuel s) = true /\
      final (setup (with_validation ok url msg i) fuel s) =
        final (setup i fuel s) /\
      events (setup (with_validation ok url msg i) fuel s) =
        before ++
        ValidateConnection ok ::
        (if ok
         then [SerialPrint "Connected to InfluxDB: "; SerialPrintln url]
         else [SerialPrint "InfluxDB connection failed: "; SerialPrintln msg]).
Proof.
  intros H.
  exists (setup_prefix ++
          events (wait_for_wifi (wifi_answers i) 0 fuel s) ++
          [SerialPrintln EmptyString;
           TimeSync TZ_INFO "pool.ntp.org" "time.nis.gov"]).
  intros ok url msg.
  assert (Hw : result (wait_for_wifi (wifi_answers i) 0 fuel s) = true)
    by (rewrite wait_for_wifi_result, <- (setup_result i fuel s); exact H).
  generalize (setup_unfold (with_validation ok url msg i) fuel s).
  generalize (setup_unfold i fuel s). cbn zeta.
  cbn [with_validation wifi_answers localIP softAPmac].
  rewrite Hw. intros -> ->.
  cbn [result final events fst snd]. split; [reflexivity|].
  split; [reflexivity|].
  unfold setup_suffix. cbn [with_validation validate_ok server_url
                              setup_last_error].
  rewrite <- !app_assoc. reflexivity.
Qed.

Lemma setup_validation_not_fatal_witness :
  result (setup (with_validation false "none" "timeout" demo_setup) 3 initial)
    = true /\
  final (setup (with_validation false "none" "timeout" demo_setup) 3 initial)
    = final (setup demo_setup 3 initial).
Proof.
  destruct (setup_validation_not_fatal demo_setup 3 initial eq_refl)
    as (before & H).
  destruct (H false "none" "timeout") as (H1 & H2 & _).
  split; [exact H1 | exact H2].
Defined.

(** ** Time spent in [delay] *)

Lemma total_delay_app (e1 e2 : list Event) :
  total_delay (e1 ++ e2) = total_delay e1 + total_delay e2.
Proof.
  induction e1 as [|e e1 IH]; [reflexivity|].
  destruct e; cbn [app total_delay]; rewrite IH; lia.
Qed.

Lemma wait_for_wifi_delay (answers : nat -> Z) (k fuel : nat) (s : Sketch) :
  total_delay (events (wait_for_wifi answers k fuel s)) =
  500 * Z.of_nat (count is_failed_check
                    (events (wait_for_wifi answers k fuel s))).
Proof.
  revert k. induction fuel as [|fuel IH]; intros k; [reflexivity|].
  rewrite wait_for_wifi_step.
  destruct (answers k =? WL_CONNECTED) eqn:E; cbn [events snd].
  - unfold count. cbn [filter is_failed_check]. rewrite E. reflexivity.
  - change (snd ?x) with (events x).
    cbn [app total_delay]. rewrite IH. unfold count.
    cbn [filter is_failed_check]. rewrite E.
    cbn [negb length]. rewrite Nat2Z.inj_succ. lia.
Qed.

(** X5: the time [setup] spends in [delay] is 500 ms for every status check
    that did not answer [WL_CONNECTED], whether [setup] has returned or is
    still waiting; nothing else in [setup] delays. *)
Theorem setup_delay_per_failed_check (i : SetupIn) (fuel : nat) (s : Sketch) :
  total_delay (events (setup i fuel s)) =
  500 * Z.of_nat (count is_failed_check (events (setup i fuel s))).
Proof.
  generalize (setup_unfold i fuel s); cbn zeta. intros ->.
  pose proof (wait_for_wifi_delay (wifi_answers i) 0 fuel s) as Hw.
  assert (Hp : total_delay setup_prefix = 0) by reflexivity.
  assert (Hq : count is_failed_check setup_prefix = 0%nat) by reflexivity.
  assert (Hs : total_delay (setup_suffix i) = 0)
    by (unfold setup_suffix; destruct (validate_ok i); reflexivity).
  assert (Ht : count is_failed_check (setup_suffix i) = 0%nat)
    by (unfold setup_suffix; destruct (validate_ok i); reflexivity).
  destruct (result (wait_for_wifi (wifi_answers i) 0 fuel s));
    cbn [events snd]; rewrite !total_delay_app, !count_app, Hw, Hp, Hq;
    rewrite ?Hs, ?Ht; lia.
Qed.

(** ** One iteration, and many *)

Lemma loops_app (a b : list LoopIn) (s : Sketch) :
  loops (a ++ b) s =
  (tt, final (loops b (final (loops a s))),
   events (loops a s) ++ events (loops b (final (loops a s)))).
Proof.
  revert s. induction a as [|i a IH]; intros s.
  - change (loops [] s) with (tt, s, @nil Event).
    cbn [app final events fst snd].
    destruct (loops b s) as [[[] s1] e1]. reflexivity.
  - cbn [app]. rewrite !loops_cons, IH.
    cbn [final events fst snd]. rewrite app_assoc. reflexivity.
Qed.

Lemma loops_sensor (script : list LoopIn) (s : Sketch) :
  measurement (sensor (final (loops script s))) = measurement (sensor s) /\
  tags (sensor (final (loops script s))) = tags (sensor s).
Proof.
  revert s. induction script as [|i rest IH]; intros s;
    [split; reflexivity|].
  rewrite loops_cons. cbn [final fst snd].
  change (snd (fst ?x)) with (final x).
  destruct (IH (final (loop i s))) as [Hm Ht].
  rewrite Hm, Ht, loop_final. split; reflexivity.
Qed.

(** X6: an iteration does not depend on the iterations before it: after any
    number of earlier iterations, [loop] gives the result, the globals and
    the events it gives without them. *)
Theorem loop_independent_of_history (script : list LoopIn) (i : LoopIn)
    (s : Sketch) :
  loop i (final (loops script s)) = loop i s.
Proof.
  rewrite !loop_unfold.
  destruct (loops_sensor script s) as [Hm Ht].
  unfold loop_events, measure_events, write_events, loop_point.
  rewrite Hm, Ht. reflexivity.
Qed.

Lemma loop_delay (i : LoopIn) (s : Sketch) :
  total_delay (events (loop i s)) = 1000.
Proof.
  rewrite loop_unfold.
  unfold events, loop_events, measure_events, wifi_events, write_events,
    wait_events; cbn [snd].
  destruct (negb (wifi_status i =? WL_CONNECTED)), (negb (write_ok i));
    reflexivity.
Qed.

Lemma loop_sensor_counts (i : LoopIn) (s : Sketch) :
  count is_sht_read (events (loop i s)) = 1%nat /\
  count is_sht_read_status (events (loop i s)) = 1%nat /\
  count is_time_sync (events (loop i s)) = 0%nat.
Proof.
  rewrite loop_unfold.
  unfold events, loop_events, measure_events, wifi_events, write_events,
    wait_events; cbn [snd].
  destruct (negb (wifi_status i =? WL_CONNECTED)), (negb (write_ok i));
    repeat split; reflexivity.
Qed.

(** X7: [n] iterations spend exactly [1000 * n] ms in [delay], read the
    sensor [n] times, read its status [n] times, check the association [n]
    times and hand [n] points to the client, whatever failed on the way;
    they never synchronise the time again. *)
Theorem loops_cadence (script : list LoopIn) (s : Sketch) :
  total_delay (events (loops script s)) = 1000 * Z.of_nat (length script) /\
  count is_sht_read (events (loops script s)) = length script /\
  count is_sht_read_status (events (loops script s)) = length script /\
  count is_wifi_run (events (loops script s)) = length script /\
  count is_write (events (loops script s)) = length script /\
  count is_time_sync (events (loops script s)) = 0%nat.
Proof.
  revert s. induction script as [|i rest IH]; intros s;
    [repeat split; reflexivity|].
  rewrite loops_cons. cbn [events snd]. change (snd ?x) with (events x).
  rewrite total_delay_app, !count_app, loop_delay.
  destruct (loop_counts i s) as (Hw & _ & Hr).
  destruct (loop_sensor_counts i s) as (Hs & Hst & Ht).
  destruct (IH (final (loop i s))) as (I1 & I2 & I3 & I4 & I5 & I6).
  rewrite Hw, Hr, Hs, Hst, Ht, I1, I2, I3, I4, I5, I6.
  cbn [length]. rewrite Nat2Z.inj_succ. repeat split; lia.
Qed.

(** ** The published point *)

(** X8: the keys of the fields of a published point are "temp", "hum",
    "stat", "error", "dewpoint" in this order when the captured error code
    is zero and "stat", "error", "dewpoint" otherwise; no key occurs
    twice. *)
Theorem loop_field_names (i : LoopIn) (s : Sketch) :
  exists p : Point,
    published (events (loop i s)) = [p] /\
    field_names p =
      (if read_error i =? 0 then ["temp"; "hum"] else []) ++
      ["stat"; "error"; "dewpoint"] /\
    NoDup (field_names p).
Proof.
  exists (loop_point i (sensor s)). rewrite loop_published.
  split; [reflexivity|].
  unfold field_names, loop_point, loop_fields; cbn [fields].
  destruct (read_error i =? 0); (split; [reflexivity|]);
    cbn [map app fst];
    repeat (constructor; [cbn [In]; intuition discriminate|]);
    constructor.
Qed.

(** X9: the line printed after "Writing: " is the line protocol of exactly
    the point that the same iteration hands to [client.writePoint]: between
    the preview and the write the point is not changed, and the only events
    in between are the association check and its warning. *)
Theorem loop_preview_is_what_is_written (i : LoopIn) (s : Sketch) :
  exists (p : Point) (after : list Event),
    events (loop i s) =
      [ShtRead; ShtReadStatus; SerialPrint "Writing: ";
       SerialPrintln (line_protocol i p)] ++
      wifi_events (wifi_status i) ++
      WritePoint p (write_ok i) :: after /\
    sensor (final (loop i s)) = p.
Proof.
  exists (loop_point i (sensor s)).
  exists ((if negb (write_ok i)
           then [SerialPrint "InfluxDB write failed: ";
                 SerialPrintln (last_error i)]
           else []) ++ wait_events).
  rewrite loop_unfold. split; reflexivity.
Qed.

(** X10: after [setup] has returned from the initial globals, the [k]-th
    iteration publishes the point named "temp_sensor" with the tags "IP" and
    "MAC" that [setup] read and with the fields of that iteration. *)
Theorem published_points_after_setup (i : SetupIn) (fuel : nat)
    (script : list LoopIn) :
  result (setup i fuel initial) = true ->
  published
    (events (loops script (final (setup i fuel initial)))) =
  map (fun j => mkPoint "temp_sensor"
                  [("IP", localIP i); ("MAC", softAPmac i)]
                  (loop_fields j)) script.
Proof.
  intros H. rewrite loops_published, setup_final, H. reflexivity.
Qed.

Lemma published_points_after_setup_witness :
  published
    (events (loops [demo_loop 4 6 false] (final (setup demo_setup 3 initial))))
  = [mkPoint "temp_sensor"
       [("IP", "192.168.12.34"); ("MAC", "AA:BB:CC:DD:EE:FF")]
       (loop_fields (demo_loop 4 6 false))].
Proof.
  apply (published_points_after_setup demo_setup 3 [demo_loop 4 6 false]).
  reflexivity.
Defined.
